(** * Test Data Records (module [ate.tdr]) : a shallow embedding

    The Python module [src/ate/tdr.py] wraps one csv file of ATE results
    ([TdrsCsv]), one row of it ([TdrsCsv.TestDataRecord]) and one named test
    of a row ([TdrsCsv.TestDataRecord.Test]).  This file embeds the record
    and test classes as Rocq functions and proves what reading their
    properties returns, raises and mutates. *)

From Stdlib Require Import String Ascii List ZArith Bool Lia DecimalString.
From Stdlib Require Import SpecFloat.
Import ListNotations.
Open Scope string_scope.

(** ** Python values

    The values a row cell, a property or a format argument can hold.  A
    float is an IEEE double, kept as the Standard Library's [spec_float];
    pandas' numpy scalars behave like the Python scalars for every operation
    used here ([==], [in], [str], [not]). *)

Inductive pyval : Type :=
| VNone
| VBool (b : bool)
| VInt (z : Z)
| VFloat (f : spec_float)
| VStr (s : string).

(** The exceptions the module can meet. *)
Inductive exn : Type :=
| KeyError (key : string)
| TypeError (msg : string).

Inductive result (A : Type) : Type :=
| Ok (a : A)
| Raise (e : exn).
Arguments Ok {A} a.
Arguments Raise {A} e.

Definition is_ok {A} (r : result A) : bool :=
  match r with Ok _ => true | Raise _ => false end.

(** *** Float literals and comparisons *)

Definition float_one : spec_float := S754_finite false 4503599627370496 (-52).
Definition float_zero : spec_float := S754_zero false.

(** [x == y] on floats. *)
Definition float_eq (x y : spec_float) : bool := SFeqb x y.

(** [not x] on a float: a float is falsy exactly when it compares equal to
    zero (so [nan] is truthy, and so is every infinity). *)
Definition float_not (x : spec_float) : bool := float_eq x float_zero.

(** [x in (a, b, ...)] on floats: some element compares equal. *)
Definition float_in (x : spec_float) (xs : list spec_float) : bool :=
  existsb (float_eq x) xs.

(** [int(b)] on a bool. *)
Definition int_of_bool (b : bool) : Z := if b then 1%Z else 0%Z.

(** *** Strings *)

(** [needle in hay] on two [str]: [needle] occurs somewhere in [hay]. *)
Fixpoint is_substring (needle hay : string) : bool :=
  String.prefix needle hay ||
  match hay with
  | EmptyString => false
  | String _ hay' => is_substring needle hay'
  end.

(** [re.split(r' \[', s)]: the pattern matches exactly the two characters
    space, opening bracket; the segments between the matches, scanned from
    the left, are returned (never an empty list). *)
Fixpoint re_split_space_bracket (s : string) : list string :=
  match s with
  | EmptyString => [EmptyString]
  | String c rest =>
      let keep_char :=
        match re_split_space_bracket rest with
        | seg :: segs => String c seg :: segs
        | [] => [String c EmptyString]
        end in
      match rest with
      | String c' rest' =>
          if Ascii.eqb c " " && Ascii.eqb c' "["
          then EmptyString :: re_split_space_bracket rest'
          else keep_char
      | EmptyString => keep_char
      end
  end.

(** [x == y] between a cell value and a [str] literal: only an equal [str]
    compares equal. *)
Definition py_eq_str (v : pyval) (lit : string) : bool :=
  match v with
  | VStr s => String.eqb s lit
  | _ => false
  end.

(** [lit in v] for a [str] literal [lit]: the substring test on a [str],
    a [TypeError] on a value that is not iterable. *)
Definition py_str_in (lit : string) (v : pyval) : result bool :=
  match v with
  | VStr s => Ok (is_substring lit s)
  | _ => Raise (TypeError "argument is not iterable")
  end.

(** ** A small state-and-exception monad

    A method of an object is a function from the object's state to its new
    state and either a value or a raised exception.  The state survives a
    raise: an attribute assigned before the raise stays assigned. *)

Definition M (S A : Type) : Type := S -> S * result A.

Definition ret {S A} (a : A) : M S A := fun s => (s, Ok a).
Definition raise {S A} (e : exn) : M S A := fun s => (s, Raise e).
Definition bind {S A B} (m : M S A) (k : A -> M S B) : M S B :=
  fun s => match m s with
           | (s', Ok a) => k a s'
           | (s', Raise e) => (s', Raise e)
           end.
Definition get {S} : M S S := fun s => (s, Ok s).
Definition modify {S} (f : S -> S) : M S unit := fun s => (f s, Ok tt).
Definition lift {S A} (r : result A) : M S A := fun s => (s, r).

(** [try: body finally: fin].  [fin] always runs; if it raises, its
    exception is the one that leaves the statement, otherwise the outcome of
    [body] (value or exception) does.  Nothing is caught. *)
Definition try_finally {S A} (body : M S A) (fin : M S unit) : M S A :=
  fun s => match body s with
           | (s1, r) => match fin s1 with
                        | (s2, Ok _) => (s2, r)
                        | (s2, Raise e) => (s2, Raise e)
                        end
           end.

(** [try: body except KeyError: handler].  Only a [KeyError] is caught. *)
Definition try_except_KeyError {S A} (body handler : M S A) : M S A :=
  fun s => match body s with
           | (s1, Raise (KeyError _)) => handler s1
           | out => out
           end.

Declare Scope py_scope.
Delimit Scope py_scope with py.
Notation "x <- m ;; k" := (bind m (fun x => k))
  (at level 61, m at next level, right associativity) : py_scope.
Notation "m ;;; k" := (bind m (fun _ => k))
  (at level 61, right associativity) : py_scope.

(** Pure bind on results, for code that has no object to mutate. *)
Definition rbind {A B} (r : result A) (k : A -> result B) : result B :=
  match r with Ok a => k a | Raise e => Raise e end.

(** ** A pandas row

    [df.iloc[idx]] is a [Series]: the column labels of the csv in file order,
    each with the cell of that row.  [read_csv] makes the labels distinct. *)

Definition Series : Type := list (string * pyval).

Definition series_find (d : Series) (label : string) : option pyval :=
  match find (fun kv => String.eqb (fst kv) label) d with
  | Some kv => Some (snd kv)
  | None => None
  end.

(** [data[label]]: a missing label is a [KeyError]. *)
Definition series_getitem (d : Series) (label : string) : result pyval :=
  match series_find d label with
  | Some v => Ok v
  | None => Raise (KeyError label)
  end.

(** [data.get(label)]: a missing label is [None]. *)
Definition series_get (d : Series) (label : string) : pyval :=
  match series_find d label with
  | Some v => v
  | None => VNone
  end.

(** [data.drop(label)]: a new Series without the label; a missing label is a
    [KeyError] (pandas' default [errors='raise']). *)
Definition series_drop (d : Series) (label : string) : result Series :=
  match series_find d label with
  | Some _ => Ok (filter (fun kv => negb (String.eqb (fst kv) label)) d)
  | None => Raise (KeyError label)
  end.

(** ** The test specification ([ate.pcf]) *)

Module Pcf.
(** One entry of a [Pcf.Section], with the attributes [tdr] reads and the
    types its property annotations give them. *)
Record Spec : Type := {
  data_type : string;
  nominal : spec_float;
  units : string;
  low_limit : spec_float;
  high_limit : spec_float
}.

(** Modelled from the spec: [Pcf.Section] ([ate/pcf.py], not part of the
    sources at hand) is "an opaque lookup spec(test_name)" that "fails
    with a NotFoundError if canonical name is unregistered".  A section is
    a partial function from test names to entries and [section[name]]
    raises [KeyError] where it is undefined. *)
Definition Section_ : Type := string -> option Spec.

Definition getitem (sec : Section_) (test_name : string) : result Spec :=
  match sec test_name with
  | Some sp => Ok sp
  | None => Raise (KeyError test_name)
  end.
End Pcf.

(** ** Module constants *)

Definition DATE_COLUMN_NAME : string := "[TIME] TIMESTAMP / RECORD ID".
Definition SERIAL_COLUMN_NAME : string := "[CONFIG] UUT SERIAL NUMBER".
(** The label of the overall result, which [set_status] spells out as a
    literal in both of its statements. *)
Definition RESULT_COLUMN_NAME : string := "[RESULT] TEST P/F STATUS".

(** ** The classes *)

(** [TdrsCsv]: the path of the csv file, the section of the test
    specification that governs it, and the rows of the loaded frame. *)
Record TdrsCsv : Type := {
  csv_path : string;
  test_spec : Pcf.Section_;
  df : list Series
}.

(** [TdrsCsv.TestDataRecord]: one row.  [r_status] is [None] until
    [set_status] assigns a bool. *)
Record TestDataRecord : Type := {
  r_csv : TdrsCsv;
  r_data : Series;
  r_date : pyval;
  r_serial : pyval;
  r_status : option bool
}.

Definition with_status (st : option bool) (r : TestDataRecord) : TestDataRecord :=
  {| r_csv := r_csv r; r_data := r_data r; r_date := r_date r;
     r_serial := r_serial r; r_status := st |}.

Definition with_data (d : Series) (r : TestDataRecord) : TestDataRecord :=
  {| r_csv := r_csv r; r_data := d; r_date := r_date r;
     r_serial := r_serial r; r_status := r_status r |}.

(** [TdrsCsv.TestDataRecord.Test]: one named test of a row.  [t_name] is
    the attribute [_name] (the raw column label), [t_operator] is [None]
    until [meas] assigns a symbol, [t_record] is the back-reference to the
    row (which nothing mutates once the row is constructed). *)
Record Test : Type := {
  t_name : string;
  t_data : pyval;
  t_operator : option string;
  t_record : TestDataRecord;
  t_spec : Pcf.Spec
}.

Definition with_operator (op : option string) (t : Test) : Test :=
  {| t_name := t_name t; t_data := t_data t; t_operator := op;
     t_record := t_record t; t_spec := t_spec t |}.

(** *** [TestDataRecord.set_status] and [TestDataRecord.__init__] *)

(** [try: self.status = True if self.data[...] == 'PASS' else False
     finally: self.data = self.data.drop(...)] *)
Definition set_status : M TestDataRecord unit :=
  try_finally
    (r <- get ;;
     v <- lift (series_getitem (r_data r) RESULT_COLUMN_NAME) ;;
     modify (with_status (Some (if py_eq_str v "PASS" then true else false))))%py
    (r <- get ;;
     d <- lift (series_drop (r_data r) RESULT_COLUMN_NAME) ;;
     modify (with_data d))%py.

(** The constructor: the object exists for the caller only if no statement
    of [__init__] raised. *)
Definition TestDataRecord_init (csv : TdrsCsv) (data : Series)
  : result TestDataRecord :=
  let self := {| r_csv := csv; r_data := data;
                 r_date := series_get data DATE_COLUMN_NAME;
                 r_serial := series_get data SERIAL_COLUMN_NAME;
                 r_status := None |} in
  match set_status self with
  | (self', Ok _) => Ok self'
  | (_, Raise e) => Raise e
  end.

(** *** [TdrsCsv.records] *)

(** [[self.TestDataRecord(self, self.df.iloc[idx]) for idx in self.df.index]]:
    one record per row of the frame, in the order of the frame (the index
    [read_csv] gives is the row positions); the first constructor that
    raises ends the comprehension. *)
Fixpoint records_of (csv : TdrsCsv) (rows : list Series)
  : result (list TestDataRecord) :=
  match rows with
  | [] => Ok []
  | row :: rows' =>
      rbind (TestDataRecord_init csv row) (fun r =>
      rbind (records_of csv rows') (fun rs => Ok (r :: rs)))
  end.

Definition records (csv : TdrsCsv) : result (list TestDataRecord) :=
  records_of csv (df csv).

(** *** [Test]: name, construction, pass-through properties *)

(** The body of the property [name], on the attribute [_name]. *)
Definition name_of (_name : string) : string :=
  if is_substring "[" _name
  then hd EmptyString (re_split_space_bracket _name)
  else _name.

Definition name (t : Test) : string := name_of (t_name t).

(** [Test.__init__].  The [isinstance] guard cannot fail here: [outer] is a
    [TestDataRecord] by typing.  [self.spec = self.record.csv.test_spec
    [self.name]] is not wrapped in any [try]. *)
Definition Test_init (outer : TestDataRecord) (_name : string) (data : pyval)
  : result Test :=
  rbind (Pcf.getitem (test_spec (r_csv outer)) (name_of _name)) (fun sp =>
  Ok {| t_name := _name; t_data := data; t_operator := None;
        t_record := outer; t_spec := sp |}).

Definition status (t : Test) : result bool :=
  rbind (py_str_in "PASS" (t_data t)) (fun b => Ok (if b then true else false)).

Definition type (t : Test) : string := Pcf.data_type (t_spec t).
Definition nominal (t : Test) : spec_float := Pcf.nominal (t_spec t).
Definition units (t : Test) : string := Pcf.units (t_spec t).
Definition low_limit (t : Test) : spec_float := Pcf.low_limit (t_spec t).
Definition high_limit (t : Test) : spec_float := Pcf.high_limit (t_spec t).

(** *** The base class [kemx.templates.Record] *)

(** Modelled from the spec: [Record.__getitem__] of the base class
    [kemx.templates.Record] is not part of the sources at hand.  The spec
    has [meas] "read a sibling field named {name} [MEAS]" of the owning
    row, with "lookup failure" when there is "no such sibling field": the
    field is looked up in the row, a missing field is a
    [KeyError], a present one is wrapped in a [Test]. *)
Definition record_getitem (r : TestDataRecord) (field : string) : result Test :=
  rbind (series_getitem (r_data r) field) (fun v => Test_init r field v).

(** Modelled from the spec: the property [Record.tests] of the base class
    [kemx.templates.Record] is not part of the sources at hand.  The spec
    has it yield, "for every remaining field name in the row, a TestResult
    keyed by that name", not deduplicated, created anew on every access. *)
Fixpoint tests_of (r : TestDataRecord) (fields : Series) : result (list Test) :=
  match fields with
  | [] => Ok []
  | (field, v) :: fields' =>
      rbind (Test_init r field v) (fun t =>
      rbind (tests_of r fields') (fun ts => Ok (t :: ts)))
  end.

Definition tests (r : TestDataRecord) : result (list Test) :=
  tests_of r (r_data r).

(** *** [Test.meas] *)

Definition set_operator (op : string) : M Test unit :=
  modify (with_operator (Some op)).

Definition meas : M Test pyval :=
  (self <- get ;;
   if String.eqb (type self) "DBL" then
     try_except_KeyError
       (set_operator "<>" ;;;
        sibling <- lift (record_getitem (t_record self) (name self ++ " [MEAS]")) ;;
        ret (t_data sibling))
       (if float_in (nominal self) [float_one; float_zero] then
          set_operator "==" ;;;
          ret (VInt (int_of_bool (float_not (nominal self))))
        else
          ret VNone)
   else if String.eqb (type self) "BOOLEAN" then
     set_operator "==" ;;;
     b <- lift (status self) ;;
     ret (VInt (int_of_bool b))
   else if String.eqb (type self) "STRING" then
     set_operator "==" ;;;
     ret VNone
   else if String.eqb (type self) "CORRELATION DBL" then
     set_operator "<>" ;;;
     ret VNone
   else
     ret VNone)%py.

(** *** Rendering, failed tests and the failure string *)

Section Rendering.

(** [str] of a float (its shortest round-trip decimal form) is left to the
    caller of the model. *)
Variable float_str : spec_float -> string.

(** [str(v)], which is also what ['{}'.format(v)] inserts. *)
Definition py_str (v : pyval) : string :=
  match v with
  | VNone => "None"
  | VBool true => "True"
  | VBool false => "False"
  | VInt z => NilZero.string_of_int (Z.to_int z)
  | VFloat f => float_str f
  | VStr s => s
  end.

(** [str] of the attribute [operator]: [None] or a [str]. *)
Definition operator_str (op : option string) : string :=
  match op with
  | None => "None"
  | Some s => s
  end.

(** [[test for test in self.tests if "FAIL" in str(test.data)]] *)
Definition get_failed_tests (r : TestDataRecord) : result (list Test) :=
  rbind (tests r) (fun ts =>
  Ok (filter (fun test => is_substring "FAIL" (py_str (t_data test))) ts)).

(** One evaluation of the [format] call of [build_failstring]: the
    arguments are read left to right, so [test.operator] is read after
    [test.meas] has assigned it. *)
Definition format_failure : M Test string :=
  (a1 <- (self <- get ;; ret (name self)) ;;
   a2 <- meas ;;
   a3 <- (self <- get ;; ret (high_limit self)) ;;
   a4 <- (self <- get ;; ret (low_limit self)) ;;
   a5 <- (self <- get ;; ret (nominal self)) ;;
   a6 <- (self <- get ;; ret (units self)) ;;
   a7 <- (self <- get ;; ret (t_operator self)) ;;
   ret ("|ftestres=0," ++ a1 ++ "," ++ py_str a2 ++ "," ++ float_str a3
        ++ "," ++ float_str a4 ++ "," ++ float_str a5 ++ "," ++ a6
        ++ "," ++ operator_str a7 ++ String "010" EmptyString))%py.

(** The [for] loop of [build_failstring], with [failstring] as the
    accumulator; a raise inside an iteration leaves the loop. *)
Fixpoint build_failstring_loop (failed : list Test) (failstring : string)
  : result string :=
  match failed with
  | [] => Ok failstring
  | test :: failed' =>
      match format_failure test with
      | (_, Ok line) => build_failstring_loop failed' (failstring ++ line)
      | (_, Raise e) => Raise e
      end
  end.

Definition build_failstring (r : TestDataRecord) : result string :=
  rbind (get_failed_tests r) (fun failed =>
  build_failstring_loop failed EmptyString).

End Rendering.

(** The line of the failure report for one failed test, as the report
    format words it: the tag, then name, measured value, high limit, low
    limit, nominal, units and operator, comma-separated, then a newline. *)
Definition report_line (float_str : spec_float -> string) (t : Test)
  (measured : pyval) (op : option string) : string :=
  "|ftestres=0," ++ name t ++ "," ++ py_str float_str measured
  ++ "," ++ float_str (high_limit t) ++ "," ++ float_str (low_limit t)
  ++ "," ++ float_str (nominal t) ++ "," ++ units t
  ++ "," ++ operator_str op ++ String "010" EmptyString.

(** The raw-text test of [__get_failed_tests], on one test. *)
Definition has_FAIL (float_str : spec_float -> string) (t : Test) : bool :=
  is_substring "FAIL" (py_str float_str (t_data t)).



(** A test object as its constructor can have built it: its spec is the
    entry of its canonical name in the section of its row's csv.  Reading
    [meas] only changes [operator], which this leaves free. *)
Definition constructed (t : Test) : Prop :=
  Test_init (t_record t) (t_name t) (t_data t) = Ok (with_operator None t).

(** The first element of the split, which is what [[0]] reads. *)
Definition first_segment (s : string) : string :=
  hd EmptyString (re_split_space_bracket s).

(** ** Sample data

    A section with one entry per data type, and rows over it. *)

Definition float_five : spec_float := S754_finite false 5629499534213120 (-50).
Definition float_4_8 : spec_float := S754_finite false 5404319552844595 (-50).
Definition float_4_9 : spec_float := S754_finite false 5516909543528858 (-50).
Definition float_5_1 : spec_float := S754_finite false 5742089524897382 (-50).

(** [str] on the floats of the samples; the table does not go further, and
    prints a question mark for any other finite float. *)
Definition sample_float_str (f : spec_float) : string :=
  match f with
  | S754_zero false => "0.0"
  | S754_zero true => "-0.0"
  | S754_infinity false => "inf"
  | S754_infinity true => "-inf"
  | S754_nan => "nan"
  | S754_finite _ _ _ =>
      if float_eq f float_one then "1.0"
      else if float_eq f float_five then "5.0"
      else if float_eq f float_4_8 then "4.8"
      else if float_eq f float_4_9 then "4.9"
      else if float_eq f float_5_1 then "5.1"
      else "?"
  end.

Definition sample_entry (ty : string) (nom : spec_float) (u : string)
  : Pcf.Spec :=
  {| Pcf.data_type := ty; Pcf.nominal := nom; Pcf.units := u;
     Pcf.low_limit := float_4_9; Pcf.high_limit := float_5_1 |}.

Definition sample_section : Pcf.Section_ := fun test_name =>
  if String.eqb test_name "Voltage" then Some (sample_entry "DBL" float_five "V")
  else if String.eqb test_name "Relay" then Some (sample_entry "DBL" float_one "")
  else if String.eqb test_name "Short" then Some (sample_entry "DBL" float_zero "")
  else if String.eqb test_name "Fuse" then Some (sample_entry "BOOLEAN" float_one "")
  else if String.eqb test_name "Label" then Some (sample_entry "STRING" float_zero "")
  else if String.eqb test_name "Drift" then Some (sample_entry "CORRELATION DBL" float_zero "V")
  else if String.eqb test_name "Count" then Some (sample_entry "I32" float_zero "")
  else None.

Definition sample_csv : TdrsCsv :=
  {| csv_path := "tdr.csv"; test_spec := sample_section; df := [] |}.

(** The row of a failing unit, with and without the measured voltage, and
    a row that lacks the overall result. *)
Definition sample_row : Series :=
  [ (RESULT_COLUMN_NAME, VStr "FAIL");
    ("Voltage [MEAS]", VFloat float_4_8);
    ("Voltage", VStr "FAIL");
    ("Fuse", VStr "PASS") ].

Definition sample_row_bare : Series :=
  [ (RESULT_COLUMN_NAME, VStr "PASS");
    ("Voltage", VStr "PASS");
    ("Relay", VStr "PASS") ].

Definition sample_row_no_result : Series :=
  [ ("Voltage", VStr "PASS") ].

(** A frame of two rows. *)
Definition sample_frame : TdrsCsv :=
  {| csv_path := "tdr.csv"; test_spec := sample_section;
     df := [sample_row; sample_row_bare] |}.

Definition sample_record (data : Series) (st : bool) : TestDataRecord :=
  {| r_csv := sample_csv;
     r_data := data;
     r_date := VNone; r_serial := VNone; r_status := Some st |}.

Definition sample_test (r : TestDataRecord) (_name : string) (data : pyval)
  (ty : string) (nom : spec_float) (u : string) : Test :=
  {| t_name := _name; t_data := data; t_operator := None;
     t_record := r; t_spec := sample_entry ty nom u |}.


(** * Properties *)

(** ** Strings: substrings and the split *)

Lemma prefix_iff (n h : string) :
  String.prefix n h = true <-> exists b, h = n ++ b.
Proof.
  revert h; induction n as [|a n IH]; intros h.
  - split; [intros _; exists h; reflexivity | intros _; destruct h; reflexivity].
  - destruct h as [|b h]; simpl.
    + split; [discriminate | intros [x Hx]; discriminate].
    + destruct (ascii_dec a b) as [->|Hab].
      * rewrite IH. split; intros [x Hx]; exists x; [now rewrite Hx | now inversion Hx].
      * split; [discriminate | intros [x Hx]; inversion Hx; congruence].
Qed.

Lemma is_substring_unfold (n : string) (c : ascii) (h : string) :
  is_substring n (String c h) = String.prefix n (String c h) || is_substring n h.
Proof. reflexivity. Qed.

(** [is_substring] is Python's [in] on two strings: an occurrence with
    something before and something after. *)
Lemma is_substring_iff (n h : string) :
  is_substring n h = true <-> exists a b, h = a ++ n ++ b.
Proof.
  induction h as [|c h IH].
  - change (is_substring n EmptyString)
      with (String.prefix n EmptyString || false).
    rewrite orb_false_r, prefix_iff. split.
    + intros [b Hb]. exists EmptyString, b. exact Hb.
    + intros [a [b Hab]]. destruct a; [exists b; exact Hab | discriminate].
  - rewrite is_substring_unfold, orb_true_iff, prefix_iff, IH. split.
    + intros [[b Hb] | [a [b Hab]]].
      * exists EmptyString, b. exact Hb.
      * exists (String c a), b. simpl. now rewrite Hab.
    + intros [a [b Hab]]. destruct a as [|c' a].
      * left. exists b. exact Hab.
      * right. exists a, b. now inversion Hab.
Qed.

Lemma append_assoc (a b c : string) : (a ++ b) ++ c = a ++ b ++ c.
Proof. induction a as [|x a IH]; simpl; [reflexivity | now rewrite IH]. Qed.

Lemma is_substring_false_tail (n : string) (c : ascii) (h : string) :
  is_substring n (String c h) = false ->
  String.prefix n (String c h) = false /\ is_substring n h = false.
Proof. rewrite is_substring_unfold. apply orb_false_elim. Qed.

Lemma re_split_nonempty (s : string) : re_split_space_bracket s <> [].
Proof.
  destruct s as [|c [|c' rest]]; simpl; try discriminate.
  - destruct (Ascii.eqb c " " && Ascii.eqb c' "["); [discriminate|].
    destruct (match rest with EmptyString => _ | String _ _ => _ end); discriminate.
Qed.

Lemma prefix_cons (a b : ascii) (n h : string) :
  String.prefix (String a n) (String b h)
  = if ascii_dec a b then String.prefix n h else false.
Proof. reflexivity. Qed.

Lemma prefix_space_bracket (c c' : ascii) (r : string) :
  String.prefix " [" (String c (String c' r))
  = Ascii.eqb c " " && Ascii.eqb c' "[".
Proof.
  rewrite prefix_cons.
  destruct (ascii_dec " " c) as [<-|Hc].
  - rewrite prefix_cons. destruct (ascii_dec "[" c') as [<-|Hc'].
    + destruct r; reflexivity.
    + rewrite (proj2 (Ascii.eqb_neq c' "[")) by congruence. reflexivity.
  - rewrite (proj2 (Ascii.eqb_neq c " ")) by congruence. reflexivity.
Qed.

Lemma prefix_space_bracket_single (c : ascii) :
  String.prefix " [" (String c EmptyString) = false.
Proof. rewrite prefix_cons. destruct (ascii_dec " " c); reflexivity. Qed.

Lemma first_segment_cons (c : ascii) (rest : string) :
  String.prefix " [" (String c rest) = false ->
  first_segment (String c rest) = String c (first_segment rest).
Proof.
  unfold first_segment. intros H.
  destruct rest as [|c' rest'].
  - reflexivity.
  - rewrite prefix_space_bracket in H.
    change (re_split_space_bracket (String c (String c' rest')))
      with (if Ascii.eqb c " " && Ascii.eqb c' "["
            then EmptyString :: re_split_space_bracket rest'
            else match re_split_space_bracket (String c' rest') with
                 | seg :: segs => String c seg :: segs
                 | [] => [String c EmptyString]
                 end).
    rewrite H.
    pose proof (re_split_nonempty (String c' rest')) as Hne.
    destruct (re_split_space_bracket (String c' rest')); [contradiction | reflexivity].
Qed.

Lemma first_segment_sep (rest : string) :
  first_segment (String " " (String "[" rest)) = EmptyString.
Proof. reflexivity. Qed.

(** A string without the separator is its own first segment. *)
Lemma first_segment_no_sep (s : string) :
  is_substring " [" s = false -> first_segment s = s.
Proof.
  induction s as [|c s IH]; intros H; [reflexivity|].
  apply is_substring_false_tail in H as [Hp Hs].
  rewrite first_segment_cons by exact Hp. now rewrite IH.
Qed.

(** The first segment is what stands before the leftmost separator. *)
Lemma first_segment_app (a b : string) :
  is_substring " [" a = false -> first_segment (a ++ " [" ++ b) = a.
Proof.
  induction a as [|c a IH]; intros H; [reflexivity|].
  apply is_substring_false_tail in H as [Hp Hs].
  change (String c a ++ " [" ++ b) with (String c (a ++ " [" ++ b)).
  rewrite first_segment_cons.
  - now rewrite IH.
  - destruct a as [|c' a'].
    + change (EmptyString ++ " [" ++ b) with (String " " (String "[" b)).
      rewrite prefix_space_bracket.
      now rewrite andb_false_r.
    + rewrite prefix_space_bracket in Hp.
      change (String c' a' ++ " [" ++ b) with (String c' (a' ++ " [" ++ b)).
      now rewrite prefix_space_bracket.
Qed.

(** Where the separator occurs, the string is the first segment, the
    separator, and a rest; and the first segment holds no separator. *)
Lemma first_segment_spec (s : string) :
  is_substring " [" (first_segment s) = false /\
  (s = first_segment s \/ exists rest, s = first_segment s ++ " [" ++ rest).
Proof.
  induction s as [|c s [IHn IHs]]; [split; [reflexivity | now left]|].
  destruct (String.prefix " [" (String c s)) eqn:Hp.
  - destruct s as [|c' s']; [now rewrite prefix_space_bracket_single in Hp|].
    rewrite prefix_space_bracket in Hp.
    apply andb_true_iff in Hp as [Hc Hc'].
    apply Ascii.eqb_eq in Hc, Hc'. subst c c'.
    rewrite first_segment_sep. split; [reflexivity|].
    right. exists s'. reflexivity.
  - rewrite first_segment_cons by exact Hp. split.
    + rewrite is_substring_unfold, IHn, orb_false_r.
      destruct (first_segment s) as [|d seg] eqn:Hseg.
      * apply prefix_space_bracket_single.
      * destruct s as [|c' s'].
        { destruct IHs as [E | [rest E]]; discriminate. }
        assert (d = c') as -> by (destruct IHs as [E | [rest E]]; now inversion E).
        rewrite prefix_space_bracket in *. exact Hp.
    + destruct IHs as [E | [rest E]].
      * left. now rewrite <- E.
      * right. exists rest.
        change (String c (first_segment s) ++ " [" ++ rest)
          with (String c (first_segment s ++ " [" ++ rest)).
        now rewrite <- E.
Qed.

Lemma sep_has_bracket (s : string) :
  is_substring " [" s = true -> is_substring "[" s = true.
Proof.
  rewrite !is_substring_iff. intros [a [b ->]].
  exists (a ++ " "), b. now rewrite append_assoc.
Qed.

Lemma no_bracket_no_sep (s : string) :
  is_substring "[" s = false -> is_substring " [" s = false.
Proof.
  intros H. destruct (is_substring " [" s) eqn:E; [|reflexivity].
  apply sep_has_bracket in E. congruence.
Qed.

(** ** The canonical name *)

Lemma name_of_bracket (raw : string) :
  is_substring "[" raw = true -> name_of raw = first_segment raw.
Proof. unfold name_of, first_segment. now intros ->. Qed.

Lemma name_of_plain (raw : string) :
  is_substring "[" raw = false -> name_of raw = raw.
Proof. unfold name_of. now intros ->. Qed.

(** A canonical name never holds the separator. *)
Lemma name_of_no_sep (raw : string) :
  is_substring " [" (name_of raw) = false.
Proof.
  destruct (is_substring "[" raw) eqn:E.
  - rewrite name_of_bracket by exact E. apply first_segment_spec.
  - rewrite name_of_plain by exact E. now apply no_bracket_no_sep.
Qed.

(** C5: a raw field name that contains an opening bracket has as canonical
    name the first segment of its split on space-then-bracket, which is
    what precedes the leftmost such separator (the whole name if there is
    none); a raw name without a bracket is its own canonical name; and
    "Voltage [MEAS]" resolves to "Voltage". *)
Theorem name_canonical (raw : string) :
  (is_substring "[" raw = true ->
     (exists segs, re_split_space_bracket raw = name_of raw :: segs) /\
     is_substring " [" (name_of raw) = false /\
     (raw = name_of raw \/ exists rest, raw = name_of raw ++ " [" ++ rest)) /\
  (is_substring "[" raw = false -> name_of raw = raw) /\
  name_of "Voltage [MEAS]" = "Voltage".
Proof.
  split; [|split; [apply name_of_plain | reflexivity]].
  intros H. rewrite (name_of_bracket raw H). split; [|apply first_segment_spec].
  unfold first_segment. pose proof (re_split_nonempty raw) as Hne.
  destruct (re_split_space_bracket raw) as [|seg segs]; [contradiction|].
  exists segs. reflexivity.
Qed.

Lemma name_canonical_witness :
  (exists segs, re_split_space_bracket "Temp [LIMIT] [2]" = "Temp" :: segs) /\
  name_of "Serial" = "Serial".
Proof.
  split.
  - destruct (proj1 (name_canonical "Temp [LIMIT] [2]") eq_refl) as [H _].
    exact H.
  - exact (proj1 (proj2 (name_canonical "Serial")) eq_refl).
Defined.

(** The field of the measured value of a test has the test's own canonical
    name: building the sibling looks up the same spec entry. *)
Lemma name_of_meas_sibling (raw : string) :
  name_of (name_of raw ++ " [MEAS]") = name_of raw.
Proof.
  rewrite name_of_bracket.
  - apply (first_segment_app (name_of raw) "MEAS]"), name_of_no_sep.
  - apply is_substring_iff. exists (name_of raw ++ " "), "MEAS]".
    now rewrite append_assoc.
Qed.

(** ** The status of a test *)

(** On a test whose raw field is text, the status is true exactly when
    that text contains "PASS" somewhere (a substring, not an equality). *)
Theorem status_iff_contains_PASS (t : Test) (s : string) :
  t_data t = VStr s ->
  exists b, status t = Ok b /\
            (b = true <-> exists before after, s = before ++ "PASS" ++ after).
Proof.
  intros Hd. unfold status. rewrite Hd.
  exists (if is_substring "PASS" s then true else false). split; [reflexivity|].
  rewrite <- is_substring_iff. destruct (is_substring "PASS" s); tauto.
Qed.

Lemma status_iff_contains_PASS_witness :
  exists b,
    status (sample_test (sample_record sample_row_bare true)
                        "Fuse" (VStr "BYPASSED") "BOOLEAN" float_one "") = Ok b /\
    (b = true <-> exists before after, "BYPASSED" = before ++ "PASS" ++ after).
Proof.
  apply (status_iff_contains_PASS
           (sample_test (sample_record sample_row_bare true)
                        "Fuse" (VStr "BYPASSED") "BOOLEAN" float_one "")
           "BYPASSED").
  reflexivity.
Defined.

(** The substring test is on a [str]; a raw value of another type (a parsed
    number, a missing cell) makes reading [status] raise [TypeError]. *)
Lemma status_not_text (t : Test) :
  (forall s, t_data t <> VStr s) -> exists msg, status t = Raise (TypeError msg).
Proof.
  intros H. unfold status. destruct (t_data t); simpl; eauto.
  now destruct (H s).
Qed.

Example status_examples :
  let t d := sample_test (sample_record sample_row_bare true)
                         "Fuse" d "BOOLEAN" float_one "" in
  status (t (VStr "PASS")) = Ok true /\
  status (t (VStr "xPASSy")) = Ok true /\
  status (t (VStr "FAIL")) = Ok false /\
  status (t (VStr "pass")) = Ok false /\
  is_ok (status (t (VFloat float_4_8))) = false.
Proof. repeat split. Qed.

(** Reading [status] on any test: it is true exactly on a text that
    contains "PASS", false exactly on a text that does not, and it raises
    [TypeError] exactly on a raw value that is not text. *)
Lemma status_text_or_raises (t : Test) :
  (status t = Ok true <->
     exists s, t_data t = VStr s /\ is_substring "PASS" s = true) /\
  (status t = Ok false <->
     exists s, t_data t = VStr s /\ is_substring "PASS" s = false) /\
  ((exists msg, status t = Raise (TypeError msg)) <->
     forall s, t_data t <> VStr s).
Proof.
  unfold status. destruct (t_data t) as [|b|z|f|s]; cbn [py_str_in rbind].
  1-4: (split; [|split]; split;
        [ discriminate | intros [s [H _]]; discriminate H
        | discriminate | intros [s [H _]]; discriminate H
        | intros _ s; discriminate | intros _; eexists; reflexivity ]).
  split; [|split]; split.
  - destruct (is_substring "PASS" s) eqn:E; [|discriminate]. intros _. eauto.
  - intros [s' [[= <-] ->]]. reflexivity.
  - destruct (is_substring "PASS" s) eqn:E; [discriminate|]. intros _. eauto.
  - intros [s' [[= <-] ->]]. reflexivity.
  - intros [msg H]. destruct (is_substring "PASS" s); discriminate H.
  - intros H. now destruct (H s).
Qed.


(** ** Constructing a record: the overall status *)

Lemma series_getitem_find (d : Series) (label : string) (v : pyval) :
  series_find d label = Some v -> series_getitem d label = Ok v.
Proof. unfold series_getitem. now intros ->. Qed.

Lemma py_eq_str_iff (v : pyval) (lit : string) :
  py_eq_str v lit = true <-> v = VStr lit.
Proof.
  destruct v; simpl; try (split; [discriminate | intros H; discriminate]).
  rewrite String.eqb_eq. split; [now intros -> | now intros [= ->]].
Qed.

(** What [set_status] does to a row that holds the overall result. *)
Lemma set_status_present (r : TestDataRecord) (v : pyval) :
  series_find (r_data r) RESULT_COLUMN_NAME = Some v ->
  set_status r =
    (with_data (filter (fun kv => negb (String.eqb (fst kv) RESULT_COLUMN_NAME))
                       (r_data r))
               (with_status (Some (py_eq_str v "PASS")) r),
     Ok tt).
Proof.
  intros H. unfold set_status, try_finally, bind, get, lift, modify.
  rewrite (series_getitem_find _ _ _ H).
  cbn [r_data with_status]. unfold series_drop. rewrite H.
  assert (E : forall b : bool, (if b then true else false) = b) by now intros [].
  now rewrite E.
Qed.

(** What [set_status] does to a row that lacks it: the lookup raises, the
    [finally] clause runs and raises too, the object is left as it was. *)
Lemma set_status_absent (r : TestDataRecord) :
  series_find (r_data r) RESULT_COLUMN_NAME = None ->
  set_status r = (r, Raise (KeyError RESULT_COLUMN_NAME)).
Proof.
  intros H. unfold set_status, try_finally, bind, get, lift, modify.
  unfold series_getitem, series_drop. rewrite H. cbv beta iota.
  now rewrite H.
Qed.

(** C3: for a row that holds the overall-result field, the record is
    constructed and its status is true exactly when the raw value of that
    field is the text "PASS"; any other value gives status false. *)
Theorem record_status_iff_PASS (csv : TdrsCsv) (data : Series) (v : pyval) :
  series_find data RESULT_COLUMN_NAME = Some v ->
  exists r, TestDataRecord_init csv data = Ok r /\
            (r_status r = Some true <-> v = VStr "PASS") /\
            (r_status r = Some false <-> v <> VStr "PASS").
Proof.
  intros H. unfold TestDataRecord_init.
  rewrite (set_status_present _ v) by exact H.
  eexists. split; [reflexivity|]. cbn [r_status with_data with_status].
  rewrite <- py_eq_str_iff.
  destruct (py_eq_str v "PASS"); split; split; congruence.
Qed.

Lemma record_status_iff_PASS_witness :
  exists r, TestDataRecord_init sample_csv sample_row = Ok r /\
            (r_status r = Some true <-> VStr "FAIL" = VStr "PASS") /\
            (r_status r = Some false <-> VStr "FAIL" <> VStr "PASS").
Proof.
  apply (record_status_iff_PASS sample_csv sample_row (VStr "FAIL")).
  reflexivity.
Defined.

Example record_status_examples :
  let st v := match TestDataRecord_init sample_csv [(RESULT_COLUMN_NAME, v)] with
              | Ok r => r_status r
              | Raise _ => None
              end in
  st (VStr "PASS") = Some true /\
  st (VStr "FAIL") = Some false /\
  st (VStr "PASS-SOMETHING") = Some false /\
  st (VStr "") = Some false /\
  st (VFloat float_one) = Some false.
Proof. repeat split. Qed.

(** The overall-result field is not among the fields of a constructed
    record. *)
Lemma record_result_field_dropped (csv : TdrsCsv) (data : Series) (r : TestDataRecord) :
  TestDataRecord_init csv data = Ok r ->
  series_find (r_data r) RESULT_COLUMN_NAME = None.
Proof.
  unfold TestDataRecord_init. intros H.
  destruct (series_find data RESULT_COLUMN_NAME) as [v|] eqn:E.
  - rewrite (set_status_present _ v) in H by exact E. injection H as <-.
    cbn [r_data with_data with_status]. unfold series_find.
    destruct (find _ (filter _ data)) as [kv|] eqn:F; [|reflexivity].
    apply find_some in F as [Hin Hk]. apply filter_In in Hin as [_ Hn].
    rewrite Hk in Hn. discriminate.
  - rewrite set_status_absent in H by exact E. discriminate.
Qed.

(** C2, as the code has it: when the overall-result field is absent from
    the row, constructing the record raises [KeyError].  The failed lookup
    is not swallowed (the [try] has a [finally] and no [except]); the drop
    is still attempted and fails on the missing label too; no record, and
    so no default status, reaches the caller. *)
Theorem record_missing_result_raises (csv : TdrsCsv) (data : Series) :
  series_find data RESULT_COLUMN_NAME = None ->
  TestDataRecord_init csv data = Raise (KeyError RESULT_COLUMN_NAME).
Proof.
  intros H. unfold TestDataRecord_init.
  now rewrite set_status_absent by exact H.
Qed.

Lemma record_missing_result_raises_witness :
  TestDataRecord_init sample_csv sample_row_no_result
  = Raise (KeyError RESULT_COLUMN_NAME).
Proof.
  apply (record_missing_result_raises sample_csv sample_row_no_result).
  reflexivity.
Defined.

(** C2, as stated, fails: on a row without the overall-result field the
    constructor does not return a record with the default status, it
    raises. *)
Lemma record_missing_result_not_swallowed :
  series_find sample_row_no_result RESULT_COLUMN_NAME = None /\
  ~ (exists r, TestDataRecord_init sample_csv sample_row_no_result = Ok r /\
               r_status r = None).
Proof.
  split; [reflexivity|]. intros [r [H _]]. discriminate H.
Qed.

(** ** Constructing a test: the spec lookup *)

Lemma Test_init_lookup_fails (outer : TestDataRecord) (_name : string) (data : pyval) :
  test_spec (r_csv outer) (name_of _name) = None ->
  Test_init outer _name data = Raise (KeyError (name_of _name)).
Proof.
  intros H. unfold Test_init, Pcf.getitem. now rewrite H.
Qed.

(** C8: constructing a test whose canonical name is not registered in the
    section raises the lookup's [KeyError]; the constructor returns no
    object. *)
Theorem Test_init_unregistered (outer : TestDataRecord) (_name : string) (data : pyval) :
  test_spec (r_csv outer) (name_of _name) = None ->
  Test_init outer _name data = Raise (KeyError (name_of _name)) /\
  ~ (exists t, Test_init outer _name data = Ok t).
Proof.
  intros H. rewrite (Test_init_lookup_fails _ _ _ H).
  split; [reflexivity | intros [t Ht]; discriminate Ht].
Qed.

Lemma Test_init_unregistered_witness :
  Test_init (sample_record sample_row_bare true) "Current [MEAS]" (VFloat float_4_8)
  = Raise (KeyError "Current").
Proof.
  refine (proj1 (Test_init_unregistered (sample_record sample_row_bare true)
           "Current [MEAS]" (VFloat float_4_8) _)).
  reflexivity.
Defined.

Lemma Test_init_registered (outer : TestDataRecord) (_name : string) (data : pyval)
  (sp : Pcf.Spec) :
  test_spec (r_csv outer) (name_of _name) = Some sp ->
  Test_init outer _name data
  = Ok {| t_name := _name; t_data := data; t_operator := None;
          t_record := outer; t_spec := sp |}.
Proof.
  intros H. unfold Test_init, Pcf.getitem. now rewrite H.
Qed.

(** The error reaches whoever enumerates the tests of the record: an
    unregistered field makes [tests] raise. *)
Lemma tests_of_unregistered (r : TestDataRecord) (fields : Series)
  (field : string) (v : pyval) :
  In (field, v) fields ->
  test_spec (r_csv r) (name_of field) = None ->
  exists key, tests_of r fields = Raise (KeyError key).
Proof.
  intros Hin Hn. induction fields as [|[f w] fields IH]; [contradiction|].
  simpl. destruct Hin as [[= -> ->] | Hin].
  - rewrite Test_init_lookup_fails by exact Hn. simpl. eauto.
  - destruct (IH Hin) as [key Hk]. unfold Test_init, Pcf.getitem.
    destruct (test_spec (r_csv r) (name_of f)); simpl; [|eauto].
    rewrite Hk. simpl. eauto.
Qed.

(** ** The measured value *)

(** Reading [meas] on a test of type DBL, by the outcome of the sibling
    lookup. *)
Lemma meas_DBL (t : Test) :
  type t = "DBL" ->
  meas t =
    match record_getitem (t_record t) (name t ++ " [MEAS]") with
    | Ok sibling => (with_operator (Some "<>") t, Ok (t_data sibling))
    | Raise (KeyError _) =>
        if float_in (nominal t) [float_one; float_zero]
        then (with_operator (Some "==") t,
              Ok (VInt (int_of_bool (float_not (nominal t)))))
        else (with_operator (Some "<>") t, Ok VNone)
    | Raise e => (with_operator (Some "<>") t, Raise e)
    end.
Proof.
  intros Hty.
  unfold meas, bind, get, try_except_KeyError, set_operator, modify, lift, ret.
  rewrite Hty. cbn [String.eqb Ascii.eqb Bool.eqb].
  destruct (record_getitem (t_record t) (name t ++ " [MEAS]")) as [sib|[key|msg]];
    try reflexivity.
  now destruct (float_in (nominal t) [float_one; float_zero]).
Qed.

(** Reading [meas] on a test whose type is not DBL. *)
Lemma meas_not_DBL (t : Test) :
  type t <> "DBL" ->
  meas t =
    if String.eqb (type t) "BOOLEAN" then
      match status t with
      | Ok b => (with_operator (Some "==") t, Ok (VInt (int_of_bool b)))
      | Raise e => (with_operator (Some "==") t, Raise e)
      end
    else if String.eqb (type t) "STRING" then
      (with_operator (Some "==") t, Ok VNone)
    else if String.eqb (type t) "CORRELATION DBL" then
      (with_operator (Some "<>") t, Ok VNone)
    else (t, Ok VNone).
Proof.
  intros Hty. apply String.eqb_neq in Hty.
  unfold meas, bind, get, set_operator, modify, lift, ret.
  rewrite Hty.
  destruct (String.eqb (type t) "BOOLEAN").
  - now destruct (status t).
  - destruct (String.eqb (type t) "STRING"); [reflexivity|].
    now destruct (String.eqb (type t) "CORRELATION DBL").
Qed.

Lemma record_getitem_absent (r : TestDataRecord) (field : string) :
  series_find (r_data r) field = None ->
  record_getitem r field = Raise (KeyError field).
Proof. intros H. unfold record_getitem, series_getitem. now rewrite H. Qed.

(** The sibling of a constructed test can be built whenever its field is in
    the row: its canonical name is the test's own, which is registered. *)
Lemma record_getitem_sibling (t : Test) (v : pyval) :
  constructed t ->
  series_find (r_data (t_record t)) (name t ++ " [MEAS]") = Some v ->
  exists sibling,
    record_getitem (t_record t) (name t ++ " [MEAS]") = Ok sibling /\
    t_data sibling = v.
Proof.
  unfold constructed, name. intros Hc Hf.
  unfold record_getitem. rewrite (series_getitem_find _ _ _ Hf).
  cbn [rbind]. unfold Test_init in *.
  rewrite name_of_meas_sibling.
  destruct (Pcf.getitem (test_spec (r_csv (t_record t))) (name_of (t_name t)))
    as [sp|e]; [|discriminate Hc].
  cbn [rbind]. eexists. split; reflexivity.
Qed.

Lemma with_operator_twice (op op' : option string) (t : Test) :
  with_operator op (with_operator op' t) = with_operator op t.
Proof. reflexivity. Qed.

Lemma constructed_with_operator (op : option string) (t : Test) :
  constructed t -> constructed (with_operator op t).
Proof. exact (fun H => H). Qed.

(** C6: on a test of type DBL whose row holds the field "{name} [MEAS]",
    reading [meas] returns the raw value of that field and leaves operator
    set to the range symbol, whatever operator was before. *)
Theorem meas_dbl_sibling (outer : TestDataRecord) (_name : string) (data v : pyval)
  (t : Test) (op : option string) :
  Test_init outer _name data = Ok t ->
  type t = "DBL" ->
  series_find (r_data outer) (name t ++ " [MEAS]") = Some v ->
  meas (with_operator op t) = (with_operator (Some "<>") t, Ok v).
Proof.
  intros Hinit Hty Hf.
  assert (Hc : constructed t /\ t_record t = outer).
  { unfold constructed.
    destruct (test_spec (r_csv outer) (name_of _name)) as [sp|] eqn:E.
    - rewrite (Test_init_registered _ _ _ sp E) in Hinit.
      injection Hinit as <-. cbn [t_record t_name t_data].
      split; [|reflexivity]. now rewrite (Test_init_registered _ _ _ sp E).
    - now rewrite Test_init_lookup_fails in Hinit by exact E. }
  destruct Hc as [Hc Hr]. rewrite <- Hr in Hf.
  destruct (record_getitem_sibling (with_operator op t) v
              (constructed_with_operator op t Hc) Hf) as [sib [Hg Hd]].
  rewrite (meas_DBL (with_operator op t) Hty), Hg, Hd. reflexivity.
Qed.

Lemma meas_dbl_sibling_witness :
  exists t,
    TestDataRecord_init sample_csv sample_row
    = Ok (t_record t) /\
    t_name t = "Voltage" /\
    meas t = (with_operator (Some "<>") t, Ok (VFloat float_4_8)).
Proof.
  set (r := sample_record (tl sample_row) false).
  set (t := sample_test r "Voltage" (VStr "FAIL") "DBL" float_five "V").
  exists t. split; [reflexivity|]. split; [reflexivity|].
  apply (meas_dbl_sibling r "Voltage" (VStr "FAIL") (VFloat float_4_8) t None);
    reflexivity.
Defined.

Lemma float_in_one : float_in float_one [float_one; float_zero] = true.
Proof. reflexivity. Qed.

Lemma float_in_zero : float_in float_zero [float_one; float_zero] = true.
Proof. reflexivity. Qed.

(** What passes the membership test [nominal in (1.0, 0.0)]: the value 1.0,
    and a zero of either sign. *)
Lemma float_eq_one (x : spec_float) :
  float_eq x float_one = true <-> x = float_one.
Proof.
  unfold float_eq, SFeqb, float_one. split; [|now intros ->].
  destruct x as [sg|sg| |sg m e]; cbv beta iota delta [SFcompare];
    try discriminate; try (destruct sg; discriminate).
  destruct sg; [discriminate|].
  destruct (Z.compare e (-52)) eqn:Ee; try discriminate.
  destruct (Pos.compare_cont Eq m 4503599627370496) eqn:Em; try discriminate.
  intros _. apply Z.compare_eq in Ee. apply Pos.compare_eq in Em. now subst.
Qed.

Lemma float_eq_zero (x : spec_float) :
  float_eq x float_zero = true <-> exists sign, x = S754_zero sign.
Proof.
  unfold float_eq, SFeqb, float_zero. split.
  - destruct x as [sg|sg| |sg m e]; cbv beta iota delta [SFcompare];
      try (destruct sg; discriminate); try discriminate.
    intros _. now exists sg.
  - now intros [sg ->].
Qed.

Lemma float_in_binary (x : spec_float) :
  float_in x [float_one; float_zero] = true <->
  x = float_one \/ exists sign, x = S754_zero sign.
Proof.
  unfold float_in, existsb.
  rewrite orb_false_r, orb_true_iff, float_eq_one, float_eq_zero. tauto.
Qed.

(** C1, as the code has it: on a test of type DBL whose row has no field
    "{name} [MEAS]", reading [meas] with a nominal that is 1.0 or 0.0 sets
    operator to the equality symbol and returns the integer negation of
    nominal (0 for 1.0, 1 for 0.0); with any other nominal it returns None
    and leaves operator at the range symbol, which was assigned before the
    lookup. *)
Theorem meas_dbl_no_sibling (t : Test) :
  type t = "DBL" ->
  series_find (r_data (t_record t)) (name t ++ " [MEAS]") = None ->
  (float_in (nominal t) [float_one; float_zero] = true ->
     meas t = (with_operator (Some "==") t,
               Ok (VInt (int_of_bool (float_not (nominal t)))))) /\
  (nominal t = float_one -> meas t = (with_operator (Some "==") t, Ok (VInt 0))) /\
  (nominal t = float_zero -> meas t = (with_operator (Some "==") t, Ok (VInt 1))) /\
  (float_in (nominal t) [float_one; float_zero] = false ->
     meas t = (with_operator (Some "<>") t, Ok VNone)).
Proof.
  intros Hty Hf. rewrite (meas_DBL t Hty), (record_getitem_absent _ _ Hf).
  repeat split.
  - now intros ->.
  - intros ->. reflexivity.
  - intros ->. reflexivity.
  - now intros ->.
Qed.

Lemma meas_dbl_no_sibling_witness :
  let r := sample_record (tl sample_row_bare) true in
  let relay := sample_test r "Relay" (VStr "PASS") "DBL" float_one "" in
  let short := sample_test r "Short" (VStr "PASS") "DBL" float_zero "" in
  let volt := sample_test r "Voltage" (VStr "PASS") "DBL" float_five "V" in
  meas relay = (with_operator (Some "==") relay, Ok (VInt 0)) /\
  meas short = (with_operator (Some "==") short, Ok (VInt 1)) /\
  meas volt = (with_operator (Some "<>") volt, Ok VNone).
Proof.
  intros r relay short volt. split; [|split].
  - exact (proj1 (proj2 (meas_dbl_no_sibling relay eq_refl eq_refl)) eq_refl).
  - exact (proj1 (proj2 (proj2 (meas_dbl_no_sibling short eq_refl eq_refl))) eq_refl).
  - exact (proj2 (proj2 (proj2 (meas_dbl_no_sibling volt eq_refl eq_refl))) eq_refl).
Defined.

(** C1, as stated, fails in its last part: a DBL test without sibling and
    with nominal 5.0 returns None from [meas], but its operator, unset
    before the read, is the range symbol after it. *)
Lemma meas_dbl_no_sibling_operator_set :
  let r := sample_record (tl sample_row_bare) true in
  let volt := sample_test r "Voltage" (VStr "PASS") "DBL" float_five "V" in
  Test_init r "Voltage" (VStr "PASS") = Ok volt /\
  type volt = "DBL" /\
  series_find (r_data (t_record volt)) (name volt ++ " [MEAS]") = None /\
  float_in (nominal volt) [float_one; float_zero] = false /\
  t_operator volt = None /\
  snd (meas volt) = Ok VNone /\
  t_operator (fst (meas volt)) = Some "<>" /\
  ~ (t_operator (fst (meas volt)) = None).
Proof. cbv zeta. repeat split. discriminate. Qed.

(** C10: on a test whose type is neither DBL nor BOOLEAN, reading [meas]
    raises nothing and returns None; it sets operator to the equality symbol
    for STRING, to the range symbol for CORRELATION DBL, and leaves the
    test untouched for any other type. *)
Theorem meas_other_types (t : Test) :
  type t <> "DBL" ->
  type t <> "BOOLEAN" ->
  snd (meas t) = Ok VNone /\
  (type t = "STRING" -> fst (meas t) = with_operator (Some "==") t) /\
  (type t = "CORRELATION DBL" -> fst (meas t) = with_operator (Some "<>") t) /\
  (type t <> "STRING" -> type t <> "CORRELATION DBL" -> fst (meas t) = t).
Proof.
  intros Hd Hb. rewrite (meas_not_DBL t Hd).
  apply String.eqb_neq in Hb. rewrite Hb.
  destruct (String.eqb_spec (type t) "STRING") as [Hs|Hs].
  - rewrite Hs. repeat split; try reflexivity; try discriminate. congruence.
  - destruct (String.eqb_spec (type t) "CORRELATION DBL") as [Hc|Hc].
    + repeat split; try reflexivity; congruence.
    + repeat split; try reflexivity; congruence.
Qed.

Lemma meas_other_types_witness :
  let r := sample_record (tl sample_row_bare) true in
  let label := sample_test r "Label" (VStr "PASS") "STRING" float_zero "" in
  let drift := sample_test r "Drift" (VStr "PASS") "CORRELATION DBL" float_zero "V" in
  let count := sample_test r "Count" (VInt 3) "I32" float_zero "" in
  (snd (meas label) = Ok VNone /\ fst (meas label) = with_operator (Some "==") label) /\
  (snd (meas drift) = Ok VNone /\ fst (meas drift) = with_operator (Some "<>") drift) /\
  (snd (meas count) = Ok VNone /\ fst (meas count) = count).
Proof.
  intros r label drift count.
  assert (Hl := meas_other_types label ltac:(discriminate) ltac:(discriminate)).
  assert (Hd := meas_other_types drift ltac:(discriminate) ltac:(discriminate)).
  assert (Hc := meas_other_types count ltac:(discriminate) ltac:(discriminate)).
  destruct Hl as [Hl1 [Hl2 _]], Hd as [Hd1 [_ [Hd2 _]]], Hc as [Hc1 [_ [_ Hc2]]].
  split; [|split].
  - exact (conj Hl1 (Hl2 eq_refl)).
  - exact (conj Hd1 (Hd2 eq_refl)).
  - refine (conj Hc1 (Hc2 _ _)); discriminate.
Defined.

(** ** Failed tests and the failure string *)

Section Report.

Variable float_str : spec_float -> string.

(** C9: the failed tests of a record are exactly those of its tests, in
    order, whose raw value rendered as text contains "FAIL"; only the raw
    value decides, the status of the test is not consulted. *)
Theorem failed_tests_exactly (r : TestDataRecord) (ts : list Test) :
  tests r = Ok ts ->
  get_failed_tests float_str r = Ok (filter (has_FAIL float_str) ts) /\
  (forall t, In t (filter (has_FAIL float_str) ts) <->
             In t ts /\
             exists before after,
               py_str float_str (t_data t) = before ++ "FAIL" ++ after) /\
  (forall t t', t_data t = t_data t' ->
                has_FAIL float_str t = has_FAIL float_str t').
Proof.
  intros Ht. unfold get_failed_tests. rewrite Ht. split; [reflexivity|]. split.
  - intros t. rewrite filter_In. unfold has_FAIL. now rewrite is_substring_iff.
  - intros t t' E. unfold has_FAIL. now rewrite E.
Qed.

Lemma get_failed_tests_inv (r : TestDataRecord) (failed : list Test) :
  get_failed_tests float_str r = Ok failed ->
  exists ts, tests r = Ok ts /\ failed = filter (has_FAIL float_str) ts.
Proof.
  unfold get_failed_tests. destruct (tests r) as [ts|e]; [|discriminate].
  intros [= <-]. exists ts. split; reflexivity.
Qed.

(** The [format] call: [meas] is read once, the other arguments are plain
    reads, the operator is the one [meas] left. *)
Lemma format_failure_meas (t : Test) :
  format_failure float_str t =
    match meas t with
    | (t', Ok m) =>
        (t', Ok ("|ftestres=0," ++ name t ++ "," ++ py_str float_str m
                 ++ "," ++ float_str (high_limit t')
                 ++ "," ++ float_str (low_limit t')
                 ++ "," ++ float_str (nominal t') ++ "," ++ units t'
                 ++ "," ++ operator_str (t_operator t')
                 ++ String "010" EmptyString))
    | (t', Raise e) => (t', Raise e)
    end.
Proof.
  unfold format_failure, bind, get, ret.
  destruct (meas t) as [t' [m|e]]; reflexivity.
Qed.

End Report.

(** Reading [meas] changes nothing of a test but its operator. *)
Lemma meas_keeps_test (t : Test) :
  fst (meas t) = with_operator (t_operator (fst (meas t))) t.
Proof.
  destruct (String.eqb_spec (type t) "DBL") as [Hd|Hd].
  - rewrite (meas_DBL t Hd).
    destruct (record_getitem _ _) as [sib|[key|msg]]; try reflexivity.
    now destruct (float_in _ _).
  - rewrite (meas_not_DBL t Hd).
    destruct (String.eqb (type t) "BOOLEAN"); [now destruct (status t)|].
    destruct (String.eqb (type t) "STRING"); [reflexivity|].
    destruct (String.eqb (type t) "CORRELATION DBL"); [reflexivity|].
    now destruct t.
Qed.

(** The sibling lookup can only fail with a [KeyError]. *)
Lemma record_getitem_raises (r : TestDataRecord) (field : string) (e : exn) :
  record_getitem r field = Raise e -> exists key, e = KeyError key.
Proof.
  unfold record_getitem, series_getitem, Test_init, Pcf.getitem.
  destruct (series_find (r_data r) field); cbn [rbind].
  - destruct (test_spec _ _); cbn [rbind]; [discriminate|].
    intros [= <-]. eauto.
  - intros [= <-]. eauto.
Qed.

(** On a test whose raw value is text, reading [meas] returns. *)
Lemma meas_returns_on_text (t : Test) (s : string) :
  t_data t = VStr s -> exists m, snd (meas t) = Ok m.
Proof.
  intros Hs. destruct (String.eqb_spec (type t) "DBL") as [Hd|Hd].
  - rewrite (meas_DBL t Hd).
    destruct (record_getitem _ _) as [sib|e] eqn:Hg; [simpl; eauto|].
    destruct (record_getitem_raises _ _ _ Hg) as [key ->].
    destruct (float_in _ _); simpl; eauto.
  - rewrite (meas_not_DBL t Hd). unfold status. rewrite Hs. cbn [py_str_in rbind].
    destruct (String.eqb (type t) "BOOLEAN"); [simpl; eauto|].
    destruct (String.eqb (type t) "STRING"); [simpl; eauto|].
    destruct (String.eqb (type t) "CORRELATION DBL"); simpl; eauto.
Qed.

Lemma uint_string_no_FAIL (d : Decimal.uint) :
  is_substring "FAIL" (NilEmpty.string_of_uint d) = false.
Proof.
  induction d; [reflexivity|..];
    cbn [NilEmpty.string_of_uint]; rewrite is_substring_unfold, IHd;
    reflexivity.
Qed.

Lemma int_string_no_FAIL (z : Z) :
  is_substring "FAIL" (NilZero.string_of_int (Z.to_int z)) = false.
Proof.
  assert (Hu : forall d, is_substring "FAIL" (NilZero.string_of_uint d) = false).
  { intros d. unfold NilZero.string_of_uint.
    destruct d; try reflexivity; apply uint_string_no_FAIL. }
  unfold NilZero.string_of_int. destruct (Z.to_int z) as [d|d].
  - apply Hu.
  - rewrite is_substring_unfold, Hu. reflexivity.
Qed.

Section FailString.

Variable float_str : spec_float -> string.

(** The text of a float is made of digits, a point, a sign, an exponent
    mark or the letters of [inf] and [nan]: it never holds "FAIL". *)
Hypothesis float_str_no_FAIL :
  forall f, is_substring "FAIL" (float_str f) = false.

(** Only a raw value that is text can hold "FAIL". *)
Lemma has_FAIL_text (t : Test) :
  has_FAIL float_str t = true -> exists s, t_data t = VStr s.
Proof.
  unfold has_FAIL. destruct (t_data t) as [|[]|z|f|s]; cbn [py_str];
    try discriminate; eauto.
  - now rewrite int_string_no_FAIL.
  - now rewrite float_str_no_FAIL.
Qed.

(** One iteration of the loop on a failed test: the line of the report. *)
Lemma format_failure_line (t : Test) :
  has_FAIL float_str t = true ->
  exists t' m, meas t = (t', Ok m) /\
               format_failure float_str t
               = (t', Ok (report_line float_str t m (t_operator t'))).
Proof.
  intros Hf. destruct (has_FAIL_text t Hf) as [s Hs].
  destruct (meas_returns_on_text t s Hs) as [m Hm].
  pose proof (meas_keeps_test t) as Hk.
  rewrite format_failure_meas.
  destruct (meas t) as [t' r]. cbn [fst snd] in *. subst r.
  exists t', m. split; [reflexivity|]. rewrite Hk. reflexivity.
Qed.

(** The loop appends one line per failed test, in order. *)
Lemma build_failstring_loop_lines (failed : list Test) (failstring : string) :
  Forall (fun t => has_FAIL float_str t = true) failed ->
  exists lines,
    build_failstring_loop float_str failed failstring
    = Ok (failstring ++ fold_right append EmptyString lines) /\
    Forall2 (fun t line =>
               exists t' m, meas t = (t', Ok m) /\
                            line = report_line float_str t m (t_operator t'))
            failed lines.
Proof.
  intros Hall. revert failstring.
  induction Hall as [|t failed Ht _ IH]; intros failstring.
  - exists []. split; [|constructor]. cbn.
    clear. induction failstring as [|c s IHs]; cbn; [reflexivity|].
    now injection IHs as <-.
  - destruct (format_failure_line t Ht) as [t' [m [Hm Hline]]].
    destruct (IH (failstring ++ report_line float_str t m (t_operator t')))
      as [lines [Hloop Hforall]].
    exists (report_line float_str t m (t_operator t') :: lines). split.
    + cbn [build_failstring_loop fold_right]. rewrite Hline, Hloop.
      now rewrite append_assoc.
    + constructor; [|exact Hforall]. exists t', m. split; [exact Hm | reflexivity].
Qed.

(** C4: the failure string of a record is the concatenation, in the order
    of its failed tests, of one line per failed test, each of the form
    "|ftestres=0," name, measured value, high limit, low limit, nominal,
    units, operator, comma-separated and ended by a newline; with no failed
    test it is the empty string, and no error. *)
Theorem build_failstring_lines (r : TestDataRecord) (failed : list Test) :
  get_failed_tests float_str r = Ok failed ->
  (exists lines,
     build_failstring float_str r = Ok (fold_right append EmptyString lines) /\
     Forall2 (fun t line =>
                exists t' m, meas t = (t', Ok m) /\
                             line = report_line float_str t m (t_operator t'))
             failed lines) /\
  (failed = [] -> build_failstring float_str r = Ok EmptyString).
Proof.
  intros Hf. unfold build_failstring. rewrite Hf. cbn [rbind]. split.
  - destruct (get_failed_tests_inv float_str r failed Hf) as [ts [_ ->]].
    destruct (build_failstring_loop_lines (filter (has_FAIL float_str) ts) EmptyString)
      as [lines [Hloop Hall]].
    + apply Forall_forall. intros t Hin. now apply filter_In in Hin.
    + exists lines. split; [exact Hloop | exact Hall].
  - now intros ->.
Qed.

End FailString.

Lemma sample_float_str_no_FAIL (f : spec_float) :
  is_substring "FAIL" (sample_float_str f) = false.
Proof.
  unfold sample_float_str. destruct f as [[]|[]| |sg m e]; try reflexivity.
  repeat match goal with
         | |- context [if ?b then _ else _] => destruct b
         end; reflexivity.
Qed.

Lemma build_failstring_lines_witness :
  let r := sample_record (tl sample_row) false in
  let volt := sample_test r "Voltage" (VStr "FAIL") "DBL" float_five "V" in
  get_failed_tests sample_float_str r = Ok [volt] /\
  (exists lines,
     build_failstring sample_float_str r = Ok (fold_right append EmptyString lines) /\
     Forall2 (fun t line =>
                exists t' m, meas t = (t', Ok m) /\
                             line = report_line sample_float_str t m (t_operator t'))
             [volt] lines).
Proof.
  intros r volt. split; [reflexivity|].
  exact (proj1 (build_failstring_lines sample_float_str sample_float_str_no_FAIL
                  r [volt] eq_refl)).
Defined.

(** The scenario of a failing voltage: one failed test, one line. *)
Example build_failstring_voltage :
  build_failstring sample_float_str (sample_record (tl sample_row) false)
  = Ok ("|ftestres=0,Voltage,4.8,5.1,4.9,5.0,V,<>" ++ String "010" EmptyString).
Proof. reflexivity. Qed.

Example build_failstring_no_failure :
  build_failstring sample_float_str (sample_record (tl sample_row_bare) true)
  = Ok EmptyString.
Proof. reflexivity. Qed.

(** A raw value can hold both words: the test then has status true and is
    among the failed tests all the same. *)
Example failed_tests_ignore_status :
  let r := sample_record [("Fuse", VStr "PASS after FAIL")] false in
  exists t, get_failed_tests sample_float_str r = Ok [t] /\ status t = Ok true.
Proof. eexists. split; reflexivity. Qed.

Lemma failed_tests_exactly_witness :
  let r := sample_record (tl sample_row) false in
  let meas_field := sample_test r "Voltage [MEAS]" (VFloat float_4_8) "DBL" float_five "V" in
  let volt := sample_test r "Voltage" (VStr "FAIL") "DBL" float_five "V" in
  let fuse := sample_test r "Fuse" (VStr "PASS") "BOOLEAN" float_one "" in
  tests r = Ok [meas_field; volt; fuse] /\
  get_failed_tests sample_float_str r
  = Ok (filter (has_FAIL sample_float_str) [meas_field; volt; fuse]) /\
  filter (has_FAIL sample_float_str) [meas_field; volt; fuse] = [volt].
Proof.
  intros r meas_field volt fuse. split; [reflexivity|]. split; [|reflexivity].
  exact (proj1 (failed_tests_exactly sample_float_str r
                  [meas_field; volt; fuse] eq_refl)).
Defined.

(** * Further properties of the module *)

(** ** The measured value of a BOOLEAN test, and what [meas] can raise *)

(** X1: On a BOOLEAN test whose raw value is text, [meas] sets operator to the
    equality symbol and returns 1 when the text contains "PASS", else 0. *)
Theorem meas_boolean_text (t : Test) (s : string) :
  type t = "BOOLEAN" ->
  t_data t = VStr s ->
  meas t = (with_operator (Some "==") t,
            Ok (VInt (if is_substring "PASS" s then 1 else 0))).
Proof.
  intros Hty Hs.
  rewrite (meas_not_DBL t) by (rewrite Hty; discriminate).
  rewrite Hty. cbn [String.eqb Ascii.eqb Bool.eqb].
  unfold status. rewrite Hs. cbn [py_str_in rbind].
  now destruct (is_substring "PASS" s).
Qed.

Lemma meas_boolean_text_witness :
  let r := sample_record (tl sample_row) false in
  let fuse := sample_test r "Fuse" (VStr "PASS") "BOOLEAN" float_one "" in
  meas fuse = (with_operator (Some "==") fuse,
               Ok (VInt (if is_substring "PASS" "PASS" then 1 else 0))).
Proof.
  intros r fuse. apply (meas_boolean_text fuse "PASS"); reflexivity.
Defined.

(** X2: On a BOOLEAN test whose raw value is not text, [meas] raises the
    [TypeError] of the substring test, after operator has been set. *)
Theorem meas_boolean_not_text (t : Test) :
  type t = "BOOLEAN" ->
  (forall s, t_data t <> VStr s) ->
  exists msg, meas t = (with_operator (Some "==") t, Raise (TypeError msg)).
Proof.
  intros Hty Hn.
  rewrite (meas_not_DBL t) by (rewrite Hty; discriminate).
  rewrite Hty. cbn [String.eqb Ascii.eqb Bool.eqb].
  destruct (status_not_text t Hn) as [msg ->]. eauto.
Qed.

Lemma meas_boolean_not_text_witness :
  let r := sample_record (tl sample_row) false in
  let fuse := sample_test r "Fuse" (VFloat float_one) "BOOLEAN" float_one "" in
  exists msg, meas fuse = (with_operator (Some "==") fuse, Raise (TypeError msg)).
Proof.
  intros r fuse. apply (meas_boolean_not_text fuse); [reflexivity|].
  intros s. discriminate.
Defined.

(** X3: [meas] raises only on a BOOLEAN test whose raw value is not text, and
    then a [TypeError]: the [KeyError] of a missing sibling never leaves
    it. *)
Theorem meas_raises_only_TypeError (t : Test) (e : exn) :
  snd (meas t) = Raise e ->
  type t = "BOOLEAN" /\
  (forall s, t_data t <> VStr s) /\
  exists msg, e = TypeError msg.
Proof.
  destruct (String.eqb_spec (type t) "DBL") as [Hd|Hd].
  - rewrite (meas_DBL t Hd).
    destruct (record_getitem _ _) as [sib|e'] eqn:Hg; [discriminate|].
    destruct (record_getitem_raises _ _ _ Hg) as [key ->].
    destruct (float_in _ _); discriminate.
  - rewrite (meas_not_DBL t Hd).
    destruct (String.eqb_spec (type t) "BOOLEAN") as [Hb|Hb].
    + unfold status. destruct (t_data t) as [| | | |s]; cbn [py_str_in rbind snd];
        try discriminate; intros [= <-]; (split; [exact Hb|]);
        (split; [intros s; discriminate | eauto]).
    + destruct (String.eqb (type t) "STRING"); [discriminate|].
      destruct (String.eqb (type t) "CORRELATION DBL"); discriminate.
Qed.

Lemma meas_raises_only_TypeError_witness :
  let r := sample_record (tl sample_row) false in
  let fuse := sample_test r "Fuse" VNone "BOOLEAN" float_one "" in
  type fuse = "BOOLEAN" /\
  (forall s, t_data fuse <> VStr s) /\
  exists msg, TypeError "argument is not iterable" = TypeError msg.
Proof.
  intros r fuse.
  apply (meas_raises_only_TypeError fuse (TypeError "argument is not iterable")).
  reflexivity.
Defined.

(** ** What [meas] mutates *)

Lemma meas_DBL_any_operator (t : Test) (op : option string) :
  type t = "DBL" ->
  meas (with_operator op t) =
    match record_getitem (t_record t) (name t ++ " [MEAS]") with
    | Ok sibling => (with_operator (Some "<>") t, Ok (t_data sibling))
    | Raise (KeyError _) =>
        if float_in (nominal t) [float_one; float_zero]
        then (with_operator (Some "==") t,
              Ok (VInt (int_of_bool (float_not (nominal t)))))
        else (with_operator (Some "<>") t, Ok VNone)
    | Raise e => (with_operator (Some "<>") t, Raise e)
    end.
Proof. intros Hty. exact (meas_DBL (with_operator op t) Hty). Qed.

Lemma meas_not_DBL_any_operator (t : Test) (op : option string) :
  type t <> "DBL" ->
  meas (with_operator op t) =
    if String.eqb (type t) "BOOLEAN" then
      match status t with
      | Ok b => (with_operator (Some "==") t, Ok (VInt (int_of_bool b)))
      | Raise e => (with_operator (Some "==") t, Raise e)
      end
    else if String.eqb (type t) "STRING" then
      (with_operator (Some "==") t, Ok VNone)
    else if String.eqb (type t) "CORRELATION DBL" then
      (with_operator (Some "<>") t, Ok VNone)
    else (with_operator op t, Ok VNone).
Proof. intros Hty. exact (meas_not_DBL (with_operator op t) Hty). Qed.

(** X4: Reading [meas] leaves the raw name, the raw value, the owning record and
    the spec of the test as they were (and so its name, type, limits,
    nominal and units): only operator can differ afterwards. *)
Theorem meas_touches_operator_only (t : Test) :
  t_name (fst (meas t)) = t_name t /\
  t_data (fst (meas t)) = t_data t /\
  t_record (fst (meas t)) = t_record t /\
  t_spec (fst (meas t)) = t_spec t.
Proof. rewrite (meas_keeps_test t). repeat split. Qed.

(** X5: Reading [meas] a second time gives the same value (or the same raise)
    and leaves the test as the first read left it. *)
Theorem meas_read_twice (t : Test) :
  meas (fst (meas t)) = meas t.
Proof.
  destruct (String.eqb_spec (type t) "DBL") as [Hd|Hd].
  - rewrite (meas_DBL t Hd).
    destruct (record_getitem (t_record t) (name t ++ " [MEAS]")) as [sib|[key|msg]] eqn:Hg.
    + cbn [fst]. now rewrite (meas_DBL_any_operator t _ Hd), Hg.
    + destruct (float_in (nominal t) [float_one; float_zero]) eqn:Hn; cbn [fst];
        now rewrite (meas_DBL_any_operator t _ Hd), Hg, Hn.
    + cbn [fst]. now rewrite (meas_DBL_any_operator t _ Hd), Hg.
  - rewrite (meas_not_DBL t Hd).
    destruct (String.eqb (type t) "BOOLEAN") eqn:Hb.
    + destruct (status t) eqn:Hs; cbn [fst];
        now rewrite (meas_not_DBL_any_operator t _ Hd), Hb, Hs.
    + destruct (String.eqb (type t) "STRING") eqn:Hstr.
      { cbn [fst]. now rewrite (meas_not_DBL_any_operator t _ Hd), Hb, Hstr. }
      destruct (String.eqb (type t) "CORRELATION DBL") eqn:Hc.
      { cbn [fst]. now rewrite (meas_not_DBL_any_operator t _ Hd), Hb, Hstr, Hc. }
      cbn [fst]. now rewrite (meas_not_DBL t Hd), Hb, Hstr, Hc.
Qed.

(** X6: On each of the four types [meas] knows, operator is one of the two
    symbols once [meas] has been read, also when the read raised. *)
Theorem meas_sets_operator (t : Test) :
  type t = "DBL" \/ type t = "BOOLEAN" \/
  type t = "STRING" \/ type t = "CORRELATION DBL" ->
  t_operator (fst (meas t)) = Some "<>" \/ t_operator (fst (meas t)) = Some "==".
Proof.
  intros [Hd | Hother].
  - rewrite (meas_DBL t Hd).
    destruct (record_getitem _ _) as [sib|[key|msg]];
      [cbn; auto | | cbn; auto].
    destruct (float_in (nominal t) [float_one; float_zero]); cbn; auto.
  - rewrite (meas_not_DBL t)
      by (destruct Hother as [H | [H | H]]; rewrite H; discriminate).
    destruct Hother as [H | [H | H]]; rewrite H; cbn [String.eqb Ascii.eqb Bool.eqb].
    + destruct (status t); cbn; auto.
    + cbn; auto.
    + cbn; auto.
Qed.

Lemma meas_sets_operator_witness :
  let r := sample_record (tl sample_row) false in
  let fuse := sample_test r "Fuse" VNone "BOOLEAN" float_one "" in
  t_operator (fst (meas fuse)) = Some "<>" \/
  t_operator (fst (meas fuse)) = Some "==".
Proof.
  intros r fuse. apply (meas_sets_operator fuse). right. left. reflexivity.
Defined.

(** ** More on the canonical name *)

Lemma append_empty (s : string) : s ++ EmptyString = s.
Proof. induction s as [|c s IH]; cbn; [reflexivity | now rewrite IH]. Qed.

(** X7: The canonical name of a canonical name is itself. *)
Theorem name_of_idempotent (raw : string) :
  name_of (name_of raw) = name_of raw.
Proof.
  pose proof (name_of_no_sep raw) as Hn.
  destruct (is_substring "[" (name_of raw)) eqn:E.
  - rewrite (name_of_bracket _ E). now apply first_segment_no_sep.
  - now apply name_of_plain.
Qed.

(** X8: The canonical name is a prefix of the raw name: the property only ever
    cuts a tail off. *)
Theorem name_of_is_prefix (raw : string) :
  exists tail, raw = name_of raw ++ tail.
Proof.
  destruct (is_substring "[" raw) eqn:E.
  - rewrite (name_of_bracket _ E).
    destruct (first_segment_spec raw) as [_ [H | [rest H]]].
    + exists EmptyString. now rewrite append_empty.
    + exists (" [" ++ rest). exact H.
  - rewrite (name_of_plain _ E). exists EmptyString. now rewrite append_empty.
Qed.

(** X9: A bracket that no space precedes is not an annotation: a raw name
    without the two characters space, bracket is kept whole, brackets
    included. *)
Theorem name_of_without_separator (raw : string) :
  is_substring " [" raw = false -> name_of raw = raw.
Proof.
  intros H. destruct (is_substring "[" raw) eqn:E.
  - rewrite (name_of_bracket _ E). now apply first_segment_no_sep.
  - now apply name_of_plain.
Qed.

Lemma name_of_without_separator_witness :
  name_of DATE_COLUMN_NAME = DATE_COLUMN_NAME /\ name_of "V[1]" = "V[1]".
Proof.
  split.
  - apply (name_of_without_separator DATE_COLUMN_NAME). reflexivity.
  - apply (name_of_without_separator "V[1]"). reflexivity.
Defined.

(** X10: Every annotated field of a test has the test's canonical name: a base
    name without separator, followed by space, bracket and any text,
    resolves to the base name. *)
Theorem name_of_annotated (base suffix : string) :
  is_substring " [" base = false ->
  name_of (base ++ " [" ++ suffix) = base.
Proof.
  intros H. rewrite name_of_bracket.
  - now apply first_segment_app.
  - apply is_substring_iff. exists (base ++ " "), suffix.
    now rewrite append_assoc.
Qed.

Lemma name_of_annotated_witness :
  name_of ("Voltage" ++ " [" ++ "LIMIT] [HIGH]") = "Voltage".
Proof. apply (name_of_annotated "Voltage" "LIMIT] [HIGH]"). reflexivity. Defined.

(** ** More on constructing records *)

Lemma series_find_filter_other (d : Series) (dropped label : string) :
  label <> dropped ->
  series_find (filter (fun kv => negb (String.eqb (fst kv) dropped)) d) label
  = series_find d label.
Proof.
  intros Hne. unfold series_find.
  induction d as [|[k v] d IH]; [reflexivity|].
  cbn [filter find fst].
  destruct (String.eqb_spec k dropped) as [->|Hk]; cbn [negb].
  - rewrite (proj2 (String.eqb_neq dropped label)) by congruence. exact IH.
  - cbn [find fst]. destruct (String.eqb k label); [reflexivity | exact IH].
Qed.

Lemma TestDataRecord_init_inv (csv : TdrsCsv) (data : Series) (r : TestDataRecord) :
  TestDataRecord_init csv data = Ok r ->
  exists v,
    series_find data RESULT_COLUMN_NAME = Some v /\
    r = {| r_csv := csv;
           r_data := filter (fun kv => negb (String.eqb (fst kv) RESULT_COLUMN_NAME)) data;
           r_date := series_get data DATE_COLUMN_NAME;
           r_serial := series_get data SERIAL_COLUMN_NAME;
           r_status := Some (py_eq_str v "PASS") |}.
Proof.
  unfold TestDataRecord_init. intros H.
  destruct (series_find data RESULT_COLUMN_NAME) as [v|] eqn:E.
  - rewrite (set_status_present _ v) in H by exact E. injection H as <-.
    exists v. split; reflexivity.
  - rewrite set_status_absent in H by exact E. discriminate.
Qed.

(** X11: A constructed record refers to its csv, has the date and the serial of
    the row ([None] where the row has no such column), and holds the row
    without the overall-result field: every other label reads as in the
    row. *)
Theorem record_init_keeps_row (csv : TdrsCsv) (data : Series) (r : TestDataRecord) :
  TestDataRecord_init csv data = Ok r ->
  r_csv r = csv /\
  r_date r = series_get data DATE_COLUMN_NAME /\
  r_serial r = series_get data SERIAL_COLUMN_NAME /\
  series_find (r_data r) RESULT_COLUMN_NAME = None /\
  (forall label, label <> RESULT_COLUMN_NAME ->
                 series_find (r_data r) label = series_find data label) /\
  map fst (r_data r)
  = filter (fun label => negb (String.eqb label RESULT_COLUMN_NAME)) (map fst data).
Proof.
  intros H. pose proof (record_result_field_dropped _ _ _ H) as Hdrop.
  destruct (TestDataRecord_init_inv _ _ _ H) as [v [_ ->]].
  cbn [r_csv r_date r_serial r_data] in *.
  repeat split; try exact Hdrop.
  - intros label Hne. now apply series_find_filter_other.
  - clear. induction data as [|[k w] data IH]; [reflexivity|].
    cbn [filter map fst]. destruct (String.eqb k RESULT_COLUMN_NAME); cbn [negb map fst];
      now rewrite IH.
Qed.

Lemma record_init_keeps_row_witness :
  exists r,
    TestDataRecord_init sample_csv sample_row = Ok r /\
    r_date r = VNone /\
    map fst (r_data r) = ["Voltage [MEAS]"; "Voltage"; "Fuse"].
Proof.
  exists (sample_record (tl sample_row) false). split; [reflexivity|].
  destruct (record_init_keeps_row sample_csv sample_row
              (sample_record (tl sample_row) false) eq_refl)
    as [_ [Hd [_ [_ [_ Hl]]]]].
  exact (conj Hd Hl).
Defined.

(** ** The records of a csv *)

Lemma init_status (csv : TdrsCsv) (row : Series) (r : TestDataRecord) :
  TestDataRecord_init csv row = Ok r ->
  r_status r = Some (py_eq_str (series_get row RESULT_COLUMN_NAME) "PASS").
Proof.
  intros H. destruct (TestDataRecord_init_inv _ _ _ H) as [v [Hv ->]].
  cbn [r_status]. unfold series_get. now rewrite Hv.
Qed.

(** X12: When [records] returns, it returns one record per row, in the order of
    the frame, and the status of each is whether the overall result of its
    row is the text "PASS". *)
Theorem records_statuses (csv : TdrsCsv) (rs : list TestDataRecord) :
  records csv = Ok rs ->
  length rs = length (df csv) /\
  map r_status rs
  = map (fun row => Some (py_eq_str (series_get row RESULT_COLUMN_NAME) "PASS"))
        (df csv).
Proof.
  unfold records. generalize (df csv) as rows. intros rows. revert rs.
  induction rows as [|row rows IH]; intros rs H.
  - injection H as <-. split; reflexivity.
  - cbn [records_of] in H.
    destruct (TestDataRecord_init csv row) as [r|e] eqn:Hr; [|discriminate].
    cbn [rbind] in H.
    destruct (records_of csv rows) as [rs'|e]; [|discriminate].
    injection H as <-. destruct (IH rs' eq_refl) as [Hl Hm].
    cbn [length map]. rewrite Hl, Hm, (init_status _ _ _ Hr). split; reflexivity.
Qed.

Lemma records_statuses_witness :
  exists rs, records sample_frame = Ok rs /\
             map r_status rs = [Some false; Some true].
Proof.
  destruct (records sample_frame) as [rs|e] eqn:E; [|discriminate E].
  exists rs. split; [reflexivity|].
  exact (proj2 (records_statuses sample_frame rs E)).
Defined.

(** X13: [records] returns whenever every row of the frame holds the
    overall-result field; an empty frame gives the empty list. *)
Theorem records_returns (csv : TdrsCsv) :
  Forall (fun row => series_find row RESULT_COLUMN_NAME <> None) (df csv) ->
  exists rs, records csv = Ok rs.
Proof.
  unfold records. generalize (df csv) as rows. intros rows Hall.
  induction Hall as [|row rows Hrow _ [rs IH]].
  - exists []. reflexivity.
  - destruct (series_find row RESULT_COLUMN_NAME) as [v|] eqn:E; [|contradiction].
    cbn [records_of]. unfold TestDataRecord_init.
    rewrite (set_status_present _ v) by exact E.
    cbn [rbind]. rewrite IH. cbn [rbind]. eauto.
Qed.

Lemma records_returns_witness :
  exists rs, records sample_frame = Ok rs.
Proof.
  apply (records_returns sample_frame).
  repeat constructor; discriminate.
Defined.

(** X14: [records] raises [KeyError] as soon as one row of the frame lacks the
    overall-result field: no partial list is returned. *)
Theorem records_raises_on_missing_result (csv : TdrsCsv) :
  Exists (fun row => series_find row RESULT_COLUMN_NAME = None) (df csv) ->
  records csv = Raise (KeyError RESULT_COLUMN_NAME).
Proof.
  unfold records. generalize (df csv) as rows. intros rows Hex.
  induction rows as [|row rows IH]; [inversion Hex|].
  cbn [records_of]. unfold TestDataRecord_init.
  destruct (series_find row RESULT_COLUMN_NAME) as [v|] eqn:E.
  - rewrite (set_status_present _ v) by exact E. cbn [rbind].
    rewrite IH; [reflexivity|]. inversion Hex; subst; [congruence | assumption].
  - rewrite set_status_absent by exact E. reflexivity.
Qed.

Lemma records_raises_on_missing_result_witness :
  records {| csv_path := "tdr.csv"; test_spec := sample_section;
             df := [sample_row; sample_row_no_result] |}
  = Raise (KeyError RESULT_COLUMN_NAME).
Proof.
  apply records_raises_on_missing_result.
  apply Exists_cons_tl, Exists_cons_hd. reflexivity.
Defined.

(** ** More on the failure string *)

(** The tests of a record carry, in row order, the labels and the cells of
    its fields, refer to the record and have no operator yet. *)
Lemma tests_of_fields (r : TestDataRecord) (fields : Series) (ts : list Test) :
  tests_of r fields = Ok ts ->
  map t_name ts = map fst fields /\
  map t_data ts = map snd fields /\
  Forall (fun t => t_record t = r /\ t_operator t = None) ts.
Proof.
  revert ts. induction fields as [|[k v] fields IH]; intros ts H.
  - injection H as <-. repeat split; constructor.
  - cbn [tests_of] in H. unfold Test_init, Pcf.getitem in H.
    destruct (test_spec (r_csv r) (name_of k)) as [sp|]; [|discriminate].
    cbn [rbind] in H.
    destruct (tests_of r fields) as [ts'|e]; [|discriminate].
    injection H as <-. destruct (IH ts' eq_refl) as [Hn [Hd Hf]].
    cbn [map fst snd t_name t_data]. rewrite Hn, Hd.
    repeat split. constructor; [split; reflexivity | exact Hf].
Qed.

(** X15: The line of a DBL test that has neither a measured-value field nor a
    nominal of 1.0 or 0.0: the measured value is printed as None, the
    operator as the range symbol. *)
Theorem format_failure_dbl_unmeasured (float_str : spec_float -> string) (t : Test) :
  type t = "DBL" ->
  series_find (r_data (t_record t)) (name t ++ " [MEAS]") = None ->
  float_in (nominal t) [float_one; float_zero] = false ->
  format_failure float_str t =
    (with_operator (Some "<>") t,
     Ok ("|ftestres=0," ++ name t ++ ",None," ++ float_str (high_limit t)
         ++ "," ++ float_str (low_limit t) ++ "," ++ float_str (nominal t)
         ++ "," ++ units t ++ ",<>" ++ String "010" EmptyString)).
Proof.
  intros Hty Hf Hn.
  rewrite format_failure_meas, (meas_DBL t Hty), (record_getitem_absent _ _ Hf), Hn.
  reflexivity.
Qed.

Lemma format_failure_dbl_unmeasured_witness :
  let r := sample_record (tl sample_row_bare) true in
  let volt := sample_test r "Voltage" (VStr "FAIL") "DBL" float_five "V" in
  snd (format_failure sample_float_str volt)
  = Ok ("|ftestres=0,Voltage,None,5.1,4.9,5.0,V,<>" ++ String "010" EmptyString).
Proof.
  intros r volt.
  exact (f_equal snd (format_failure_dbl_unmeasured sample_float_str volt
                        eq_refl eq_refl eq_refl)).
Defined.

(** X16: The line of a test whose type [meas] does not know, read for the first
    time: measured value and operator are both printed as None, and the
    test is left untouched. *)
Theorem format_failure_unknown_type (float_str : spec_float -> string) (t : Test) :
  type t <> "DBL" -> type t <> "BOOLEAN" ->
  type t <> "STRING" -> type t <> "CORRELATION DBL" ->
  t_operator t = None ->
  format_failure float_str t =
    (t,
     Ok ("|ftestres=0," ++ name t ++ ",None," ++ float_str (high_limit t)
         ++ "," ++ float_str (low_limit t) ++ "," ++ float_str (nominal t)
         ++ "," ++ units t ++ ",None" ++ String "010" EmptyString)).
Proof.
  intros Hd Hb Hs Hc Hop.
  rewrite format_failure_meas, (meas_not_DBL t Hd).
  apply String.eqb_neq in Hb, Hs, Hc. rewrite Hb, Hs, Hc, Hop.
  reflexivity.
Qed.

Lemma format_failure_unknown_type_witness :
  let r := sample_record (tl sample_row_bare) true in
  let count := sample_test r "Count" (VStr "FAIL") "I32" float_zero "" in
  snd (format_failure sample_float_str count)
  = Ok ("|ftestres=0,Count,None,5.1,4.9,0.0,,None" ++ String "010" EmptyString).
Proof.
  intros r count.
  refine (f_equal snd (format_failure_unknown_type sample_float_str count
                         _ _ _ _ eq_refl)); discriminate.
Defined.

Section ReportFacts.

Variable float_str : spec_float -> string.

Hypothesis float_str_no_FAIL :
  forall f, is_substring "FAIL" (float_str f) = false.

(** X17: Only fields whose raw value is text can be failed tests: a cell parsed
    as a number, a bool or a missing value never is one. *)
Theorem failed_tests_are_text (r : TestDataRecord) (failed : list Test) :
  get_failed_tests float_str r = Ok failed ->
  Forall (fun t => exists s, t_data t = VStr s /\ is_substring "FAIL" s = true)
         failed.
Proof.
  intros H. destruct (get_failed_tests_inv float_str r failed H) as [ts [_ ->]].
  apply Forall_forall. intros t Hin. apply filter_In in Hin as [_ Hf].
  destruct (has_FAIL_text float_str float_str_no_FAIL t Hf) as [s Hs].
  exists s. split; [exact Hs|]. unfold has_FAIL in Hf. now rewrite Hs in Hf.
Qed.

(** X18: The failure string is empty exactly when the record has no failed
    test. *)
Theorem build_failstring_empty_iff (r : TestDataRecord) (failed : list Test) :
  get_failed_tests float_str r = Ok failed ->
  (build_failstring float_str r = Ok EmptyString <-> failed = []).
Proof.
  intros H. unfold build_failstring. rewrite H. cbn [rbind]. split.
  - intros Hb. destruct failed as [|t failed]; [reflexivity|].
    destruct (get_failed_tests_inv float_str r _ H) as [ts [_ Hfl]].
    destruct (build_failstring_loop_lines float_str float_str_no_FAIL
                (t :: failed) EmptyString) as [lines [Hloop Hall]].
    + rewrite Hfl. apply Forall_forall. intros x Hin. now apply filter_In in Hin.
    + rewrite Hloop in Hb. inversion Hall as [|? l ? ls [t' [m [_ Hl]]] _]; subst.
      discriminate Hb.
  - now intros ->.
Qed.

(** X19: Every field left in the row becomes a test, so a field whose canonical
    name the section does not register makes the failure string
    unavailable: [build_failstring] raises the [KeyError] of the lookup,
    whether or not any test failed. *)
Theorem build_failstring_unregistered_field (r : TestDataRecord)
  (field : string) (v : pyval) :
  In (field, v) (r_data r) ->
  test_spec (r_csv r) (name_of field) = None ->
  exists key, build_failstring float_str r = Raise (KeyError key).
Proof.
  intros Hin Hn.
  destruct (tests_of_unregistered r (r_data r) field v Hin Hn) as [key Hk].
  exists key. unfold build_failstring, get_failed_tests, tests. now rewrite Hk.
Qed.

End ReportFacts.

Lemma failed_tests_are_text_witness :
  let r := sample_record (tl sample_row) false in
  let volt := sample_test r "Voltage" (VStr "FAIL") "DBL" float_five "V" in
  Forall (fun t => exists s, t_data t = VStr s /\ is_substring "FAIL" s = true)
         [volt].
Proof.
  intros r volt.
  exact (failed_tests_are_text sample_float_str sample_float_str_no_FAIL
           r [volt] eq_refl).
Defined.

Lemma build_failstring_empty_iff_witness :
  let r := sample_record (tl sample_row_bare) true in
  build_failstring sample_float_str r = Ok EmptyString <-> @nil Test = [].
Proof.
  intros r.
  exact (build_failstring_empty_iff sample_float_str sample_float_str_no_FAIL
           r [] eq_refl).
Defined.

Lemma build_failstring_unregistered_field_witness :
  let r := sample_record [(DATE_COLUMN_NAME, VStr "2024-01-01_10:00:00.000000");
                          ("Voltage", VStr "PASS")] true in
  exists key, build_failstring sample_float_str r = Raise (KeyError key).
Proof.
  intros r.
  apply (build_failstring_unregistered_field sample_float_str r
           DATE_COLUMN_NAME (VStr "2024-01-01_10:00:00.000000")).
  - left. reflexivity.
  - reflexivity.
Defined.

(** X20: The overall-result field of the row is never one of the tests of a
    constructed record; its tests are the remaining fields, in row order. *)
Theorem tests_exclude_result (csv : TdrsCsv) (data : Series)
  (r : TestDataRecord) (ts : list Test) :
  TestDataRecord_init csv data = Ok r ->
  tests r = Ok ts ->
  map t_name ts
  = filter (fun label => negb (String.eqb label RESULT_COLUMN_NAME)) (map fst data) /\
  Forall (fun t => t_name t <> RESULT_COLUMN_NAME) ts.
Proof.
  intros Hinit Ht. destruct (tests_of_fields r (r_data r) ts Ht) as [Hn _].
  destruct (TestDataRecord_init_inv _ _ _ Hinit) as [v [_ Hr]].
  assert (Hl : map fst (r_data r)
               = filter (fun label => negb (String.eqb label RESULT_COLUMN_NAME))
                        (map fst data)).
  { rewrite Hr. cbn [r_data]. clear.
    induction data as [|[k w] data IH]; [reflexivity|].
    cbn [filter map fst]. destruct (String.eqb k RESULT_COLUMN_NAME);
      cbn [negb map fst]; now rewrite IH. }
  split; [now rewrite Hn, Hl|].
  apply Forall_forall. intros t Hin Heq.
  apply (in_map t_name) in Hin. rewrite Hn, Hl in Hin.
  apply filter_In in Hin as [_ Hneg]. rewrite Heq, String.eqb_refl in Hneg.
  discriminate.
Qed.

Lemma tests_exclude_result_witness :
  exists r ts,
    TestDataRecord_init sample_csv sample_row = Ok r /\
    tests r = Ok ts /\
    map t_name ts = ["Voltage [MEAS]"; "Voltage"; "Fuse"].
Proof.
  set (r := sample_record (tl sample_row) false).
  destruct (tests r) as [ts|e] eqn:E; [|discriminate E].
  exists r, ts. split; [reflexivity|]. split; [exact E|].
  exact (proj1 (tests_exclude_result sample_csv sample_row r ts eq_refl E)).
Defined.
